(** * Force-mode example of the Universal Robots client library

    A shallow embedding of [examples/force_mode_example.cpp]: the
    program-state callback, the blocking wait on the condition variable,
    the version-gated force-mode start and the keepalive loop of [main],
    followed by the properties of the session they implement.

    Conventions of the embedding.
    - Calls into the client library, the dashboard, the logger, the clock
      and the condition variable are recorded as [Event]s, in program
      order; the answers of the outside world are read from an
      [Environment].
    - [double] arguments are binary64 primitive floats, so that a literal
      such as [0.005] denotes the same number as in the C++ source.
    - Points in time are integer nanosecond ticks of
      [std::chrono::steady_clock].  The [duration<double>] accumulator of
      the keepalive loop is a binary64 value of the Standard Library's
      specification of IEEE 754 arithmetic ([SpecFloat]): conversions,
      division and addition round to nearest even, as the C++ [double]
      operations do.
    - Library calls return to [main]; of the exceptions a call may throw
      only those of [std::stoi] are modelled. *)

From Stdlib Require Import ZArith List String Bool Lia Floats Sorted.
Import ListNotations.

Set Warnings "-inexact-float".
Local Open Scope string_scope.
Local Open Scope list_scope.
Local Open Scope Z_scope.

(** ** Data *)

(** [urcl::vector6d_t] and [urcl::vector6uint32_t] are
    [std::array<_, 6>]. *)
Inductive vector6 (A : Type) : Type :=
| Vector6 (a0 a1 a2 a3 a4 a5 : A).
Arguments Vector6 {A} a0 a1 a2 a3 a4 a5.

Definition vector6d_t := vector6 float.
Definition vector6uint32_t := vector6 Z.

(** Brace initialisation [{ a0, a1, a2, a3, a4, a5 }] at each of the two
    element types. *)
Definition vector6d (a0 a1 a2 a3 a4 a5 : float) : vector6d_t :=
  Vector6 a0 a1 a2 a3 a4 a5.
Definition vector6uint32 (a0 a1 a2 a3 a4 a5 : Z) : vector6uint32_t :=
  Vector6 a0 a1 a2 a3 a4 a5.

(** The two overloads of [UrDriver::startForceMode] used by [main]: the
    one with six parameters, and the one with a seventh, trailing
    [gain_scaling_factor]. *)
Inductive StartForceMode : Type :=
| startForceMode6 (task_frame : vector6d_t)
                  (selection_vector : vector6uint32_t)
                  (wrench : vector6d_t)
                  (type : Z)
                  (limits : vector6d_t)
                  (damping_factor : float)
| startForceMode7 (task_frame : vector6d_t)
                  (selection_vector : vector6uint32_t)
                  (wrench : vector6d_t)
                  (type : Z)
                  (limits : vector6d_t)
                  (damping_factor : float)
                  (gain_scaling_factor : float).

(** What the program does to the outside world, in program order. *)
Inductive Event : Type :=
| ev_cout_program_running (program_running : bool)
| ev_notify_one
| ev_log_error (msg : string)
| ev_log_info (msg : string)
| ev_dashboard_connect (robot_ip : string)
| ev_commandStop
| ev_new_UrDriver (robot_ip script_file output_recipe input_recipe : string)
                  (headless : bool)
| ev_checkCalibration (checksum : string)
| ev_wait_for (milliseconds : Z)
| ev_getVersion
| ev_startForceMode (call : StartForceMode)
| ev_writeKeepalive
| ev_steady_clock_now
| ev_sleep_for (milliseconds : Z)
| ev_endForceMode
| ev_writeFreedriveControlMessage (freedrive_action : Z).

(** How a run of the process ends.  [StillLooping] is the answer of the
    model when the keepalive loop has not finished after the number of
    iterations it was allowed. *)
Inductive Outcome : Type :=
| Exited (code : Z)
| Terminated
| StillLooping.

(** The globals shared by the callback and the waiting thread.
    [g_program_running] has static storage and is zero-initialised. *)
Record Globals : Type := { g_program_running : bool }.

Definition initial_globals : Globals := {| g_program_running := false |}.

Definition DEFAULT_ROBOT_IP : string := "192.168.56.101".
Definition SCRIPT_FILE : string := "resources/external_control.urscript".
Definition OUTPUT_RECIPE : string := "examples/resources/rtde_output_recipe.txt".
Definition INPUT_RECIPE : string := "examples/resources/rtde_input_recipe.txt".
Definition CALIBRATION_CHECKSUM : string := "calib_12788084448423163542".

(** ** The program-state callback *)

(** [handleRobotProgramState]: prints the reported value; only a report
    of [true] takes the lock, stores the value and notifies the
    condition variable. *)
Definition handleRobotProgramState (program_running : bool) (g : Globals)
  : Globals * list Event :=
  if program_running
  then ({| g_program_running := program_running |},
        [ev_cout_program_running program_running; ev_notify_one])
  else (g, [ev_cout_program_running program_running]).

(** A sequence of callback invocations, oldest first. *)
Fixpoint deliver (reports : list bool) (g : Globals) : Globals * list Event :=
  match reports with
  | [] => (g, [])
  | b :: rest =>
      let (g1, e1) := handleRobotProgramState b g in
      let (g2, e2) := deliver rest g1 in
      (g2, e1 ++ e2)
  end.

(** ** The condition variable *)

Inductive cv_status : Type := no_timeout | timeout.

Definition cv_status_eqb (a b : cv_status) : bool :=
  match a, b with
  | no_timeout, no_timeout | timeout, timeout => true
  | _, _ => false
  end.

(** What happens while a thread is blocked in
    [std::condition_variable::wait_for], oldest first: the network thread
    invokes the callback, or the wait is unblocked spuriously, which the
    C++ standard allows for the overload without a predicate.  Times are
    milliseconds since the wait began. *)
Inductive Wakeup : Type :=
| callback (at_ms : Z) (program_running : bool)
| spurious (at_ms : Z).

Definition notifies (es : list Event) : bool :=
  existsb (fun e => match e with ev_notify_one => true | _ => false end) es.

Record Waited : Type := {
  status : cv_status;
  elapsed_ms : Z;
  globals_after : Globals;
  events_during : list Event
}.

(** [wait_for(lk, rel_time)] without a predicate: the thread is unblocked
    by the first [notify_one] or spurious wakeup that comes before
    [rel_time] has passed, and by the expiry of [rel_time] otherwise.
    Callbacks run by the network thread meanwhile act on the globals. *)
Fixpoint wait_for (rel_time : Z) (during : list Wakeup) (g : Globals) : Waited :=
  match during with
  | [] => {| status := timeout; elapsed_ms := rel_time;
             globals_after := g; events_during := [] |}
  | callback t b :: rest =>
      if rel_time <=? t
      then {| status := timeout; elapsed_ms := rel_time;
              globals_after := g; events_during := [] |}
      else
        let (g1, e1) := handleRobotProgramState b g in
        if notifies e1
        then {| status := no_timeout; elapsed_ms := t;
                globals_after := g1; events_during := e1 |}
        else
          let w := wait_for rel_time rest g1 in
          {| status := status w; elapsed_ms := elapsed_ms w;
             globals_after := globals_after w;
             events_during := e1 ++ events_during w |}
  | spurious t :: _ =>
      if rel_time <=? t
      then {| status := timeout; elapsed_ms := rel_time;
              globals_after := g; events_during := [] |}
      else {| status := no_timeout; elapsed_ms := t;
              globals_after := g; events_during := [] |}
  end.

Record WaitReturn : Type := {
  returned : bool;
  blocked_ms : Z;
  globals_on_return : Globals;
  events_of_wait : list Event
}.

(** [waitForProgramRunning]: one [wait_for] without predicate, then the
    flag is read under the lock. *)
Definition waitForProgramRunning (milliseconds : Z) (during : list Wakeup)
           (g : Globals) : WaitReturn :=
  let w := wait_for (Z.max 0 milliseconds) during g in
  {| returned :=
       if cv_status_eqb (status w) no_timeout
          || Bool.eqb (g_program_running (globals_after w)) true
       then true else false;
     blocked_ms := elapsed_ms w;
     globals_on_return := globals_after w;
     events_of_wait := ev_wait_for milliseconds :: events_during w |}.

(** ** The version-gated start of force mode *)

(** Lines 178-194 of [main]: the call chosen from the major version
    number reported by [getVersion()]. *)
Definition start_force_mode_call (major : Z) : StartForceMode :=
  if major <? 5
  then startForceMode6 (vector6d 0 0 0 0 0 0)
                       (vector6uint32 0 0 1 0 0 1)
                       (vector6d 0 0 (-2) 0 0 0)
                       2
                       (vector6d 0.1 0.1 1.5 3.14 3.14 0.5)
                       0.005
  else startForceMode7 (vector6d 0 0 0 0 0 0)
                       (vector6uint32 0 0 1 0 0 1)
                       (vector6d 0 0 (-2) 0 0 0)
                       2
                       (vector6d 0.1 0.1 1.5 3.14 3.14 0.5)
                       0.005
                       1.0.

(** ** Sequencing with early exit *)

(** A computation emits events and either yields a value or ends the
    process ([return] from [main], [exit], an uncaught exception). *)
Definition Proc (A : Type) : Type := (list Event * (A + Outcome))%type.

Definition ret {A : Type} (a : A) : Proc A := ([], inl a).

Definition bind {A B : Type} (m : Proc A) (k : A -> Proc B) : Proc B :=
  match m with
  | (es, inl a) => let (es', r) := k a in (es ++ es', r)
  | (es, inr o) => (es, inr o)
  end.

Notation "x <- m ;; k" := (bind m (fun x => k))
  (at level 61, m at next level, right associativity).
Notation "m ;; k" := (bind m (fun _ => k))
  (at level 61, right associativity).

Definition emit (e : Event) : Proc unit := ([e], inl tt).
Definition call {A : Type} (e : Event) (answer : A) : Proc A := ([e], inl answer).
Definition stop {A : Type} (o : Outcome) : Proc A := ([], inr o).
Definition when (c : bool) (body : Proc unit) : Proc unit :=
  if c then body else ret tt.

Definition URCL_LOG_ERROR (msg : string) : Proc unit := emit (ev_log_error msg).
Definition URCL_LOG_INFO (msg : string) : Proc unit := emit (ev_log_info msg).

(** The value returned by [main], or the way the process ended before. *)
Definition finish (p : Proc Z) : list Event * Outcome :=
  match p with
  | (es, inl code) => (es, Exited code)
  | (es, inr o) => (es, o)
  end.

(** ** The outside world *)

(** The answers [main] gets from outside.  [stoi] is [std::stoi], [None]
    standing for a thrown exception.  [reports_before_wait] are the
    callback invocations made after the driver was created and before
    [main] enters [waitForProgramRunning]; [during_wait] is what happens
    while it is blocked there.  [steady_clock_now k] is the [k]-th reading
    of the clock, in nanoseconds; [writeKeepalive k] the result of the
    call in iteration [k]. *)
Record Environment : Type := {
  stoi : string -> option Z;
  connect : bool;
  commandStop : bool;
  checkCalibration : bool;
  reports_before_wait : list bool;
  during_wait : list Wakeup;
  getVersion_major : Z;
  startForceMode : bool;
  writeKeepalive : nat -> bool;
  steady_clock_now : nat -> Z;
  endForceMode : bool
}.

(** ** [sendFreedriveMessageOrDie] *)

Definition sendFreedriveMessageOrDie (freedrive_action : Z) (accepted : bool)
  : Proc unit :=
  ret_ <- call (ev_writeFreedriveControlMessage freedrive_action) accepted ;;
  when (negb ret_)
       (URCL_LOG_ERROR "Could not send joint command. Is the robot in remote control?" ;;
        stop (Exited 1)).

(** ** The keepalive loop *)

Definition nanoseconds_per_second : Z := 1000000000.

(** Conversion of a 64-bit integer count to [double]. *)
Definition double_of_int64 (n : Z) : spec_float :=
  binary_normalize prec emax n 0 false.

(** The conversion [duration<double>] applies to a count of nanoseconds:
    the count as a [double], divided by [1e9]. *)
Definition seconds_of_nanoseconds (ns : Z) : spec_float :=
  SF64div (double_of_int64 ns) (double_of_int64 nanoseconds_per_second).

Arguments double_of_int64 : simpl never.
Arguments seconds_of_nanoseconds : simpl never.

(** Lines 205-213.  [k] counts the iterations done so far, [fuel] bounds
    the iterations still allowed.  [time_done] is the [duration<double>]
    of the source, in seconds; [timeout] is [double(second_to_run)].  The
    result of [writeKeepalive] is discarded, as in the source. *)
Fixpoint keepalive_loop (env : Environment) (second_to_run : Z) (fuel : nat)
         (k : nat) (time_done : spec_float) (stopwatch_last : Z) : Proc unit :=
  if SFltb time_done (double_of_int64 second_to_run) || (second_to_run =? 0)
  then
    match fuel with
    | O => stop StillLooping
    | S fuel' =>
        _ <- call ev_writeKeepalive (writeKeepalive env k) ;;
        stopwatch_now <- call ev_steady_clock_now (steady_clock_now env (S k)) ;;
        emit (ev_sleep_for 2) ;;
        keepalive_loop env second_to_run fuel' (S k)
                       (SF64add time_done
                                (seconds_of_nanoseconds (stopwatch_now - stopwatch_last)))
                       stopwatch_now
    end
  else ret tt.

(** ** [main] *)

Definition calibration_hint : string :=
  ("Use the ur_calibration tool to extract the correct calibration from the robot and pass that into "
   ++ "the description. See "
   ++ "[https://github.com/UniversalRobots/Universal_Robots_ROS_Driver#extract-calibration-information] "
   ++ "for details.")%string.

Definition main (argv : list string) (env : Environment) (fuel : nat)
  : list Event * Outcome :=
  let argc := Z.of_nat (List.length argv) in
  finish (
    let robot_ip := if 1 <? argc then nth 1 argv "" else DEFAULT_ROBOT_IP in
    second_to_run <-
      (if 2 <? argc
       then match stoi env (nth 2 argv "") with
            | Some n => ret n
            | None => stop Terminated
            end
       else ret 0) ;;
    connected <- call (ev_dashboard_connect robot_ip) (connect env) ;;
    when (negb connected)
         (URCL_LOG_ERROR "Could not connect to dashboard" ;; stop (Exited 1)) ;;
    stopped <- call ev_commandStop (commandStop env) ;;
    when (negb stopped)
         (URCL_LOG_ERROR "Could not send stop program command" ;; stop (Exited 1)) ;;
    emit (ev_new_UrDriver robot_ip SCRIPT_FILE OUTPUT_RECIPE INPUT_RECIPE true) ;;
    calibrated <- call (ev_checkCalibration CALIBRATION_CHECKSUM) (checkCalibration env) ;;
    when (negb calibrated)
         (URCL_LOG_ERROR "Calibration checksum does not match actual robot." ;;
          URCL_LOG_ERROR calibration_hint) ;;
    let (g, early) := deliver (reports_before_wait env) initial_globals in
    let w := waitForProgramRunning 100 (during_wait env) g in
    running <- (early ++ events_of_wait w, inl (returned w)) ;;
    when (negb running)
         (URCL_LOG_ERROR "External Control script not running." ;; stop (Exited 1)) ;;
    major <- call ev_getVersion (getVersion_major env) ;;
    success <- call (ev_startForceMode (start_force_mode_call major)) (startForceMode env) ;;
    when (negb success)
         (URCL_LOG_ERROR "Failed to start force mode." ;; stop (Exited 1)) ;;
    stopwatch_last <- call ev_steady_clock_now (steady_clock_now env 0) ;;
    keepalive_loop env second_to_run fuel 0 (double_of_int64 0) stopwatch_last ;;
    URCL_LOG_INFO "Timeout reached." ;;
    _ <- call ev_endForceMode (endForceMode env) ;;
    ret 0).

(** ** Observations on traces *)

Definition has_gain_scaling (c : StartForceMode) : bool :=
  match c with
  | startForceMode6 _ _ _ _ _ _ => false
  | startForceMode7 _ _ _ _ _ _ _ => true
  end.

(** The call [c] extended by a trailing gain-scaling argument. *)
Definition with_gain_scaling (c : StartForceMode) (gain : float) : StartForceMode :=
  match c with
  | startForceMode6 tf sv w t l d => startForceMode7 tf sv w t l d gain
  | startForceMode7 tf sv w t l d _ => startForceMode7 tf sv w t l d gain
  end.

(** The six arguments the two overloads have in common. *)
Definition common_arguments (c : StartForceMode)
  : vector6d_t * vector6uint32_t * vector6d_t * Z * vector6d_t * float :=
  match c with
  | startForceMode6 tf sv w t l d => (tf, sv, w, t, l, d)
  | startForceMode7 tf sv w t l d _ => (tf, sv, w, t, l, d)
  end.

Definition is_mode_start (e : Event) : bool :=
  match e with ev_startForceMode _ => true | _ => false end.

(** The force-mode starts issued in a trace, in order. *)
Definition mode_starts (tr : list Event) : list Event := filter is_mode_start tr.

(** The parts of a run of [main], named for the statements below. *)

Definition robot_ip_of (argv : list string) : string :=
  if 1 <? Z.of_nat (List.length argv) then nth 1 argv "" else DEFAULT_ROBOT_IP.

Definition parse_second_to_run (argv : list string) (env : Environment) : option Z :=
  if 2 <? Z.of_nat (List.length argv) then stoi env (nth 2 argv "") else Some 0.

(** The call of [waitForProgramRunning()] made by [main], with its
    default timeout of 100 ms. *)
Definition session_wait (env : Environment) : WaitReturn :=
  waitForProgramRunning 100 (during_wait env)
                        (fst (deliver (reports_before_wait env) initial_globals)).

Definition calibration_logs : list Event :=
  [ev_log_error "Calibration checksum does not match actual robot.";
   ev_log_error calibration_hint].

(** The events up to the calibration check, and those of the wait with
    the reports that came before it. *)
Definition calibration_prefix (argv : list string) : list Event :=
  [ev_dashboard_connect (robot_ip_of argv); ev_commandStop;
   ev_new_UrDriver (robot_ip_of argv) SCRIPT_FILE OUTPUT_RECIPE INPUT_RECIPE true;
   ev_checkCalibration CALIBRATION_CHECKSUM].

Definition wait_events (env : Environment) : list Event :=
  snd (deliver (reports_before_wait env) initial_globals)
  ++ events_of_wait (session_wait env).

(** Everything up to the return of the wait. *)
Definition startup_events (argv : list string) (env : Environment) : list Event :=
  calibration_prefix argv
  ++ (if checkCalibration env then [] else calibration_logs)
  ++ wait_events env.

Definition start_events (env : Environment) : list Event :=
  [ev_getVersion; ev_startForceMode (start_force_mode_call (getVersion_major env))].

(** [n] iterations of the keepalive loop. *)
Fixpoint iterations (n : nat) : list Event :=
  match n with
  | O => []
  | S n' => ev_writeKeepalive :: ev_steady_clock_now :: ev_sleep_for 2 :: iterations n'
  end.

(** Whether a run gets past the wait for the script. *)
Definition reaches_start (argv : list string) (env : Environment) : bool :=
  match parse_second_to_run argv env with
  | None => false
  | Some _ => connect env && commandStop env && returned (session_wait env)
  end.

(** Whether an occurrence unblocks a wait of length [rel_time]. *)
Definition wakes (rel_time : Z) (w : Wakeup) : bool :=
  match w with
  | callback t b => (t <? rel_time) && b
  | spurious t => t <? rel_time
  end.

Definition undisturbed (rel_time : Z) (during : list Wakeup) : bool :=
  forallb (fun w => negb (wakes rel_time w)) during.

(** Time between the reading taken before the loop and the [k]-th
    reading taken in it, in nanoseconds. *)
Definition elapsed_ns (env : Environment) (k : nat) : Z :=
  steady_clock_now env k - steady_clock_now env 0.

(** [n] is the first reading at which [second_to_run] seconds are over. *)
Definition first_expiry (env : Environment) (second_to_run : Z) (n : nat) : Prop :=
  (forall k, (k < n)%nat -> elapsed_ns env k < second_to_run * nanoseconds_per_second)
  /\ second_to_run * nanoseconds_per_second <= elapsed_ns env n.

(** The value of [time_done] after [k] passes through the loop. *)
Fixpoint time_done_after (env : Environment) (k : nat) : spec_float :=
  match k with
  | O => double_of_int64 0
  | S k' =>
      SF64add (time_done_after env k')
              (seconds_of_nanoseconds
                 (steady_clock_now env (S k') - steady_clock_now env k'))
  end.

(** [n] is the first pass after which [time_done] is no longer below
    the run duration. *)
Definition accumulated_expiry (env : Environment) (second_to_run : Z) (n : nat) : Prop :=
  (forall k, (k < n)%nat ->
             SFltb (time_done_after env k) (double_of_int64 second_to_run) = true)
  /\ SFltb (time_done_after env n) (double_of_int64 second_to_run) = false.

Definition is_keepalive (e : Event) : bool :=
  match e with ev_writeKeepalive => true | _ => false end.

(** ** Environments *)

(** An environment with another answer of [checkCalibration]. *)
Definition with_checkCalibration (b : bool) (env : Environment) : Environment :=
  {| stoi := stoi env;
     connect := connect env;
     commandStop := commandStop env;
     checkCalibration := b;
     reports_before_wait := reports_before_wait env;
     during_wait := during_wait env;
     getVersion_major := getVersion_major env;
     startForceMode := startForceMode env;
     writeKeepalive := writeKeepalive env;
     steady_clock_now := steady_clock_now env;
     endForceMode := endForceMode env |}.

(** An environment with other results of [writeKeepalive] and
    [endForceMode]. *)
Definition with_keepalive_and_end (keepalive : nat -> bool) (ended : bool)
           (env : Environment) : Environment :=
  {| stoi := stoi env;
     connect := connect env;
     commandStop := commandStop env;
     checkCalibration := checkCalibration env;
     reports_before_wait := reports_before_wait env;
     during_wait := during_wait env;
     getVersion_major := getVersion_major env;
     startForceMode := startForceMode env;
     writeKeepalive := keepalive;
     steady_clock_now := steady_clock_now env;
     endForceMode := ended |}.

(** A robot of the e-Series on which every step succeeds: the script is
    reported running before [main] waits for it, and each pass through
    the keepalive loop takes a quarter of a second. *)
Definition cooperative_robot : Environment :=
  {| stoi := fun s => if String.eqb s "1" then Some 1 else None;
     connect := true;
     commandStop := true;
     checkCalibration := true;
     reports_before_wait := [true];
     during_wait := [];
     getVersion_major := 5;
     startForceMode := true;
     writeKeepalive := fun _ => true;
     steady_clock_now := fun k => 250000000 * Z.of_nat k;
     endForceMode := true |}.

(** The same robot, except that the script is never reported running. *)
Definition silent_robot : Environment :=
  {| stoi := stoi cooperative_robot;
     connect := true;
     commandStop := true;
     checkCalibration := true;
     reports_before_wait := [];
     during_wait := [callback 40 false];
     getVersion_major := 5;
     startForceMode := true;
     writeKeepalive := fun _ => true;
     steady_clock_now := steady_clock_now cooperative_robot;
     endForceMode := true |}.

(** The same robot again, with no report at all and a spurious wakeup
    of the condition variable 10 ms into the wait. *)
Definition spuriously_woken_robot : Environment :=
  {| stoi := stoi cooperative_robot;
     connect := true;
     commandStop := true;
     checkCalibration := true;
     reports_before_wait := [];
     during_wait := [spurious 10];
     getVersion_major := 5;
     startForceMode := true;
     writeKeepalive := fun _ => true;
     steady_clock_now := steady_clock_now cooperative_robot;
     endForceMode := true |}.

(** The cooperative robot with a clock on which each pass through the
    keepalive loop takes a tenth of a second. *)
Definition tenth_of_a_second_robot : Environment :=
  {| stoi := stoi cooperative_robot;
     connect := true;
     commandStop := true;
     checkCalibration := true;
     reports_before_wait := [true];
     during_wait := [];
     getVersion_major := 5;
     startForceMode := true;
     writeKeepalive := fun _ => true;
     steady_clock_now := fun k => 100000000 * Z.of_nat k;
     endForceMode := true |}.

(** A command line asking for a run of one second. *)
Definition one_second_run : list string :=
  ["force_mode_example"; "192.168.56.101"; "1"].

(** ** Further observations *)

Definition is_notify (e : Event) : bool :=
  match e with ev_notify_one => true | _ => false end.

Definition is_end (e : Event) : bool :=
  match e with ev_endForceMode => true | _ => false end.

(** The events [main] can emit up to the return of the wait, and those
    of the keepalive loop. *)
Definition startup_kind (e : Event) : bool :=
  match e with
  | ev_dashboard_connect _ | ev_commandStop | ev_new_UrDriver _ _ _ _ _
  | ev_checkCalibration _ | ev_log_error _
  | ev_cout_program_running _ | ev_notify_one | ev_wait_for _ => true
  | _ => false
  end.

Definition loop_kind (e : Event) : bool :=
  match e with
  | ev_writeKeepalive | ev_steady_clock_now | ev_sleep_for _ => true
  | _ => false
  end.

Definition wakeup_time (w : Wakeup) : Z :=
  match w with
  | callback t _ => t
  | spurious t => t
  end.

(** The events of the callback and of the wait. *)
Definition wait_kind (e : Event) : bool :=
  match e with
  | ev_cout_program_running _ | ev_notify_one | ev_wait_for _ => true
  | _ => false
  end.

(** Whether the process returned 0. *)
Definition returned_zero (o : Outcome) : bool :=
  match o with
  | Exited 0 => true
  | _ => false
  end.

(** The occurrences during a wait are listed oldest first. *)
Definition chronological (during : list Wakeup) : Prop :=
  StronglySorted Z.le (map wakeup_time during).

(** Whether the script is reported running before the wait of [main], or
    something unblocks that wait within its 100 ms. *)
Definition ready (env : Environment) : bool :=
  existsb (fun b => b) (reports_before_wait env)
  || existsb (wakes 100) (during_wait env).

(** An environment with another [std::stoi]. *)
Definition with_stoi (f : string -> option Z) (env : Environment) : Environment :=
  {| stoi := f;
     connect := connect env;
     commandStop := commandStop env;
     checkCalibration := checkCalibration env;
     reports_before_wait := reports_before_wait env;
     during_wait := during_wait env;
     getVersion_major := getVersion_major env;
     startForceMode := startForceMode env;
     writeKeepalive := writeKeepalive env;
     steady_clock_now := steady_clock_now env;
     endForceMode := endForceMode env |}.

(** An environment with another reported major version. *)
Definition with_major (major : Z) (env : Environment) : Environment :=
  {| stoi := stoi env;
     connect := connect env;
     commandStop := commandStop env;
     checkCalibration := checkCalibration env;
     reports_before_wait := reports_before_wait env;
     during_wait := during_wait env;
     getVersion_major := major;
     startForceMode := startForceMode env;
     writeKeepalive := writeKeepalive env;
     steady_clock_now := steady_clock_now env;
     endForceMode := endForceMode env |}.

(** A trace without its force-mode starts. *)
Definition other_events (tr : list Event) : list Event :=
  filter (fun e => negb (is_mode_start e)) tr.

(** The seven ways a run of [main] can go. *)
Inductive Run (argv : list string) (env : Environment) (fuel : nat)
  : list Event * Outcome -> Prop :=
| run_bad_argument :
    parse_second_to_run argv env = None ->
    Run argv env fuel ([], Terminated)
| run_no_dashboard :
    connect env = false ->
    Run argv env fuel
        ([ev_dashboard_connect (robot_ip_of argv);
          ev_log_error "Could not connect to dashboard"], Exited 1)
| run_no_stop :
    connect env = true -> commandStop env = false ->
    Run argv env fuel
        ([ev_dashboard_connect (robot_ip_of argv); ev_commandStop;
          ev_log_error "Could not send stop program command"], Exited 1)
| run_not_running :
    connect env = true -> commandStop env = true ->
    returned (session_wait env) = false ->
    Run argv env fuel
        (startup_events argv env
         ++ [ev_log_error "External Control script not running."], Exited 1)
| run_no_force_mode :
    connect env = true -> commandStop env = true ->
    returned (session_wait env) = true -> startForceMode env = false ->
    Run argv env fuel
        (startup_events argv env ++ start_events env
         ++ [ev_log_error "Failed to start force mode."], Exited 1)
| run_completed (n : nat) :
    connect env = true -> commandStop env = true ->
    returned (session_wait env) = true -> startForceMode env = true ->
    (n <= fuel)%nat ->
    Run argv env fuel
        (startup_events argv env ++ start_events env
         ++ ev_steady_clock_now :: iterations n
         ++ [ev_log_info "Timeout reached."; ev_endForceMode], Exited 0)
| run_still_looping :
    connect env = true -> commandStop env = true ->
    returned (session_wait env) = true -> startForceMode env = true ->
    Run argv env fuel
        (startup_events argv env ++ start_events env
         ++ ev_steady_clock_now :: iterations fuel, StillLooping).

(** ** Properties *)

(** *** Traces without a force-mode start *)

Lemma mode_starts_app (a b : list Event) :
  mode_starts (a ++ b) = mode_starts a ++ mode_starts b.
Proof. apply filter_app. Qed.

Lemma In_mode_starts (c : StartForceMode) (tr : list Event) :
  In (ev_startForceMode c) tr <-> In (ev_startForceMode c) (mode_starts tr).
Proof.
  unfold mode_starts. rewrite filter_In. cbn. tauto.
Qed.

Lemma handler_events_no_start (b : bool) (g : Globals) :
  mode_starts (snd (handleRobotProgramState b g)) = [].
Proof. destruct b; reflexivity. Qed.

Lemma deliver_no_start (reports : list bool) (g : Globals) :
  mode_starts (snd (deliver reports g)) = [].
Proof.
  revert g. induction reports as [|b rest IH]; intros g; cbn; [reflexivity|].
  pose proof (handler_events_no_start b g) as Hb.
  destruct (handleRobotProgramState b g) as [g1 e1].
  specialize (IH g1). destruct (deliver rest g1) as [g2 e2].
  cbn [snd] in *. now rewrite mode_starts_app, Hb, IH.
Qed.

Lemma wait_for_no_start (rel_time : Z) (during : list Wakeup) (g : Globals) :
  mode_starts (events_during (wait_for rel_time during g)) = [].
Proof.
  revert g. induction during as [|[t b|t] rest IH]; intros g; cbn.
  - reflexivity.
  - destruct (rel_time <=? t); [reflexivity|].
    pose proof (handler_events_no_start b g) as Hb.
    destruct (handleRobotProgramState b g) as [g1 e1]. cbn [snd] in Hb.
    destruct (notifies e1); cbn [events_during]; [assumption|].
    now rewrite mode_starts_app, Hb, IH.
  - destruct (rel_time <=? t); reflexivity.
Qed.

Lemma iterations_no_start (n : nat) : mode_starts (iterations n) = [].
Proof. induction n; cbn; auto. Qed.

Lemma startup_no_start (argv : list string) (env : Environment) :
  mode_starts (startup_events argv env) = [].
Proof.
  unfold startup_events, wait_events, session_wait, waitForProgramRunning.
  cbn [events_of_wait].
  rewrite !mode_starts_app, deliver_no_start.
  change (ev_wait_for 100 :: ?l) with ([ev_wait_for 100] ++ l).
  rewrite mode_starts_app, wait_for_no_start.
  destruct (checkCalibration env); reflexivity.
Qed.

Lemma keepalives_iterations (n : nat) :
  List.length (filter is_keepalive (iterations n)) = n.
Proof. induction n; cbn; auto. Qed.

(** *** The callback and the wait *)

Lemma handler_flag (b : bool) (g : Globals) :
  g_program_running (fst (handleRobotProgramState b g)) = b || g_program_running g.
Proof. destruct b; reflexivity. Qed.

Lemma deliver_flag (reports : list bool) (g : Globals) :
  g_program_running (fst (deliver reports g))
  = g_program_running g || existsb (fun b => b) reports.
Proof.
  revert g. induction reports as [|b rest IH]; intros g; cbn.
  - now rewrite orb_false_r.
  - pose proof (handler_flag b g) as Hb.
    destruct (handleRobotProgramState b g) as [g1 e1]. cbn [fst] in Hb.
    specialize (IH g1). destruct (deliver rest g1) as [g2 e2]. cbn [fst] in *.
    rewrite IH, Hb. destruct b, (g_program_running g); reflexivity.
Qed.

(** Nothing that happens during the wait clears the flag. *)
Lemma wait_for_keeps_flag (rel_time : Z) (during : list Wakeup) (g : Globals) :
  g_program_running g = true ->
  g_program_running (globals_after (wait_for rel_time during g)) = true.
Proof.
  revert g. induction during as [|[t b|t] rest IH]; intros g Hg; cbn.
  - assumption.
  - destruct (rel_time <=? t); [assumption|].
    pose proof (handler_flag b g) as Hb.
    destruct (handleRobotProgramState b g) as [g1 e1]. cbn [fst] in Hb.
    assert (g_program_running g1 = true)
      by (rewrite Hb, Hg; apply orb_true_r).
    destruct (notifies e1); cbn; auto.
  - destruct (rel_time <=? t); assumption.
Qed.

(** The wait never lasts longer than [rel_time]. *)
Lemma wait_for_elapsed_le (rel_time : Z) (during : list Wakeup) (g : Globals) :
  elapsed_ms (wait_for rel_time during g) <= rel_time.
Proof.
  revert g. induction during as [|[t b|t] rest IH]; intros g; cbn.
  - lia.
  - destruct (Z.leb_spec rel_time t); cbn; [lia|].
    destruct (handleRobotProgramState b g) as [g1 e1].
    destruct (notifies e1); cbn; [lia|apply IH].
  - destruct (Z.leb_spec rel_time t); cbn; lia.
Qed.

(** A wait that nothing unblocks runs into its timeout and leaves the
    flag as it was. *)
Lemma wait_for_undisturbed (rel_time : Z) (during : list Wakeup) (g : Globals) :
  undisturbed rel_time during = true ->
  status (wait_for rel_time during g) = timeout
  /\ elapsed_ms (wait_for rel_time during g) = rel_time
  /\ globals_after (wait_for rel_time during g) = g.
Proof.
  revert g. induction during as [|[t b|t] rest IH]; intros g U; cbn.
  - auto.
  - cbn in U. apply andb_prop in U as [Hw U].
    destruct (Z.leb_spec rel_time t); cbn; [auto|].
    destruct (Z.ltb_spec t rel_time); [|lia].
    destruct b; [discriminate|]. cbn. apply (IH g U).
  - cbn in U. apply andb_prop in U as [Hw U].
    destruct (Z.leb_spec rel_time t); cbn; [auto|].
    destruct (Z.ltb_spec t rel_time); [discriminate|lia].
Qed.

(** With the flag unset and nothing unblocking the wait,
    [waitForProgramRunning] returns [false] when its timeout expires. *)
Lemma wait_times_out_when_undisturbed (ms : Z) (during : list Wakeup) (g : Globals) :
  g_program_running g = false ->
  undisturbed (Z.max 0 ms) during = true ->
  returned (waitForProgramRunning ms during g) = false
  /\ blocked_ms (waitForProgramRunning ms during g) = Z.max 0 ms.
Proof.
  intros Hg U. unfold waitForProgramRunning. cbn [returned blocked_ms].
  destruct (wait_for_undisturbed (Z.max 0 ms) during g U) as (-> & -> & ->).
  rewrite Hg. auto.
Qed.

(** C3 (as the claim states it, refuted). It is not the case that the
    running flag equals the reported value after every invocation of the
    callback: a report of [false] leaves a set flag set. *)
Lemma false_report_does_not_reset_flag :
  ~ (forall (b : bool) (g : Globals),
        g_program_running (fst (handleRobotProgramState b g)) = b).
Proof.
  intros H. specialize (H false {| g_program_running := true |}).
  discriminate H.
Qed.

(** C3 (amended). A report of [true] sets the running flag; a report of
    [false] is only printed and leaves the flag as it was, so the flag is
    never reset by the callback. *)
Theorem report_sets_flag_and_never_resets (b : bool) (g : Globals) :
  g_program_running (fst (handleRobotProgramState b g))
  = (if b then true else g_program_running g)
  /\ handleRobotProgramState false g = (g, [ev_cout_program_running false]).
Proof.
  destruct b; split; reflexivity.
Qed.

(** C2 (as the claim states it, refuted). A wait that begins after a
    report of [true] was delivered does not return before its timeout has
    passed when nothing unblocks it: with the default 100 ms it blocks for
    100 ms. *)
Lemma wait_after_report_is_not_immediate :
  ~ (forall (reports : list bool) (during : list Wakeup) (g0 : Globals) (ms : Z),
        In true reports -> 0 < ms ->
        returned (waitForProgramRunning ms during (fst (deliver reports g0))) = true
        /\ blocked_ms (waitForProgramRunning ms during (fst (deliver reports g0))) < ms).
Proof.
  intros H.
  destruct (H [true] [] initial_globals 100) as [_ Hlt];
    [left; reflexivity | lia | ].
  vm_compute in Hlt. discriminate Hlt.
Qed.

(** C2 (amended). When a report of [true] was delivered before
    [waitForProgramRunning] is called, the call returns [true] (there is
    no false timeout), after blocking for at most its timeout; it blocks
    for the whole timeout when nothing unblocks the condition variable in
    the meantime. *)
Theorem wait_after_report_returns_true
        (reports : list bool) (during : list Wakeup) (g0 : Globals) (ms : Z) :
  In true reports ->
  returned (waitForProgramRunning ms during (fst (deliver reports g0))) = true
  /\ blocked_ms (waitForProgramRunning ms during (fst (deliver reports g0)))
     <= Z.max 0 ms
  /\ (undisturbed (Z.max 0 ms) during = true ->
      blocked_ms (waitForProgramRunning ms during (fst (deliver reports g0)))
      = Z.max 0 ms).
Proof.
  intros Hin.
  assert (Hflag : g_program_running (fst (deliver reports g0)) = true).
  { rewrite deliver_flag. apply orb_true_iff. right.
    apply existsb_exists. exists true. auto. }
  unfold waitForProgramRunning. cbn [returned blocked_ms].
  repeat split.
  - rewrite (wait_for_keeps_flag _ _ _ Hflag).
    destruct (cv_status_eqb _ _); reflexivity.
  - apply wait_for_elapsed_le.
  - intros U. now destruct (wait_for_undisturbed _ _ (fst (deliver reports g0)) U)
      as (_ & -> & _).
Qed.

Lemma wait_after_report_returns_true_witness :
  returned (waitForProgramRunning 100 [callback 30 false]
              (fst (deliver [false; true] initial_globals))) = true
  /\ blocked_ms (waitForProgramRunning 100 [callback 30 false]
                   (fst (deliver [false; true] initial_globals)))
     = 100.
Proof.
  destruct (wait_after_report_returns_true [false; true] [callback 30 false]
              initial_globals 100) as (R & _ & B).
  - right; left; reflexivity.
  - split; [exact R | apply B; reflexivity].
Defined.

(** C8 (the code at the failing input). With the flag never set and no
    report arriving, a spurious wakeup 10 ms into a wait of 100 ms makes
    [waitForProgramRunning] return [true]; [main] then starts force mode
    although the script was never reported running. *)
Theorem spurious_wakeup_is_taken_for_running :
  returned (waitForProgramRunning 100 [spurious 10] initial_globals) = true
  /\ blocked_ms (waitForProgramRunning 100 [spurious 10] initial_globals) = 10
  /\ g_program_running
       (globals_on_return (waitForProgramRunning 100 [spurious 10] initial_globals))
     = false
  /\ mode_starts (fst (main one_second_run spuriously_woken_robot 10))
     = [ev_startForceMode (start_force_mode_call 5)].
Proof. repeat split. Qed.

(** *** The two calls of [startForceMode] *)

(** C10. The two firmware-version branches pass the same task frame,
    selection vector, wrench, type, limits and damping factor; the call of
    the branch for major version 5 and above is the call of the other
    branch with the one trailing gain-scaling argument [1.0] added. *)
Theorem force_mode_branches_differ_by_gain_only (older newer : Z) :
  older < 5 -> 5 <= newer ->
  common_arguments (start_force_mode_call older)
  = common_arguments (start_force_mode_call newer)
  /\ has_gain_scaling (start_force_mode_call older) = false
  /\ start_force_mode_call newer
     = with_gain_scaling (start_force_mode_call older) 1.0.
Proof.
  intros Hold Hnew. unfold start_force_mode_call.
  destruct (Z.ltb_spec older 5) as [_|]; [|lia].
  destruct (Z.ltb_spec newer 5) as [|_]; [lia|].
  repeat split.
Qed.

Lemma force_mode_branches_differ_by_gain_only_witness :
  common_arguments (start_force_mode_call 3)
  = common_arguments (start_force_mode_call 5)
  /\ has_gain_scaling (start_force_mode_call 3) = false
  /\ start_force_mode_call 5
     = with_gain_scaling (start_force_mode_call 3) 1.0.
Proof.
  apply (force_mode_branches_differ_by_gain_only 3 5); lia.
Defined.

(** *** The keepalive loop *)

(** The loop reads nothing from the environment but the clock. *)
Lemma keepalive_loop_ext (env env' : Environment) (s : Z) (fuel : nat) :
  (forall k, steady_clock_now env k = steady_clock_now env' k) ->
  forall (k : nat) (td : spec_float) (last : Z),
    keepalive_loop env s fuel k td last = keepalive_loop env' s fuel k td last.
Proof.
  intros Hclock. induction fuel as [|fuel IH]; intros k td last; cbn.
  - reflexivity.
  - destruct (_ || _); [|reflexivity].
    cbn. rewrite Hclock, IH. reflexivity.
Qed.

Section KeepaliveLoop.

Variable env : Environment.

(** The loop emits whole iterations only, at most as many as allowed. *)
Lemma keepalive_loop_events (s : Z) (fuel k : nat) (td : spec_float) (last : Z) :
  exists n, (n <= fuel)%nat /\ fst (keepalive_loop env s fuel k td last) = iterations n.
Proof.
  revert k td last. induction fuel as [|fuel IH]; intros k td last; cbn.
  - exists 0%nat. split; [lia|]. destruct (_ || _); reflexivity.
  - destruct (_ || _).
    + destruct (IH (S k) (SF64add td (seconds_of_nanoseconds (steady_clock_now env (S k) - last)))
                   (steady_clock_now env (S k))) as [n [Hn E]].
      exists (S n). split; [lia|].
      destruct (keepalive_loop env s fuel (S k) _ _) as [es r].
      cbn in *. now rewrite E.
    + exists 0%nat. split; [lia|reflexivity].
Qed.

(** The loop either ends or is still going; it never ends the process. *)
Lemma keepalive_loop_outcome (s : Z) (fuel k : nat) (td : spec_float) (last : Z) :
  snd (keepalive_loop env s fuel k td last) = inl tt
  \/ snd (keepalive_loop env s fuel k td last) = inr StillLooping.
Proof.
  revert k td last. induction fuel as [|fuel IH]; intros k td last; cbn.
  - destruct (_ || _); auto.
  - destruct (_ || _); [|auto].
    specialize (IH (S k) (SF64add td (seconds_of_nanoseconds (steady_clock_now env (S k) - last)))
                   (steady_clock_now env (S k))).
    destruct (keepalive_loop env s fuel (S k) _ _) as [es r]. exact IH.
Qed.

(** With a run duration of 0 the loop condition holds forever. *)
Lemma keepalive_loop_forever (fuel k : nat) (td : spec_float) (last : Z) :
  keepalive_loop env 0 fuel k td last = (iterations fuel, inr StillLooping).
Proof.
  revert k td last. induction fuel as [|fuel IH]; intros k td last; cbn.
  - rewrite orb_true_r. reflexivity.
  - rewrite orb_true_r. cbn. rewrite IH. reflexivity.
Qed.

(** With another run duration the loop goes on until the first pass
    after which [time_done] is no longer below the duration: [d] more
    iterations if that is [d] passes ahead, and as many as it is allowed
    if it is allowed less. *)
Lemma keepalive_loop_until_expiry (s : Z) (d : nat) :
  s <> 0 ->
  forall (fuel k : nat),
    accumulated_expiry env s (k + d) ->
    keepalive_loop env s fuel k (time_done_after env k) (steady_clock_now env k)
    = if (d <=? fuel)%nat
      then (iterations d, inl tt)
      else (iterations fuel, inr StillLooping).
Proof.
  intros Hs. induction d as [|d IH]; intros fuel k [Hbefore Hat].
  - replace (k + 0)%nat with k in Hat by lia.
    assert (C : SFltb (time_done_after env k) (double_of_int64 s) || (s =? 0) = false).
    { rewrite Hat. apply Z.eqb_neq. assumption. }
    destruct fuel; cbn [keepalive_loop]; rewrite C; reflexivity.
  - assert (C : SFltb (time_done_after env k) (double_of_int64 s) || (s =? 0) = true).
    { rewrite Hbefore by lia. reflexivity. }
    destruct fuel as [|fuel]; cbn [keepalive_loop]; rewrite C; [reflexivity|].
    cbn [call emit bind].
    change (SF64add (time_done_after env k)
              (seconds_of_nanoseconds
                 (steady_clock_now env (S k) - steady_clock_now env k)))
      with (time_done_after env (S k)).
    rewrite (IH fuel (S k)).
    + change (S d <=? S fuel)%nat with (d <=? fuel)%nat.
      destruct (d <=? fuel)%nat; reflexivity.
    + replace (S k + d)%nat with (k + S d)%nat by lia. split; assumption.
Qed.

(** If [time_done] is not below the duration after some pass, there is a
    first such pass. *)
Lemma accumulated_expiry_least (s : Z) (k : nat) :
  SFltb (time_done_after env k) (double_of_int64 s) = false ->
  exists n, (n <= k)%nat /\ accumulated_expiry env s n.
Proof.
  intros Hk.
  assert (Hall : forall b,
             (exists n, (n <= b)%nat /\ accumulated_expiry env s n)
             \/ (forall j, (j <= b)%nat ->
                    SFltb (time_done_after env j) (double_of_int64 s) = true)).
  { induction b as [|b [[n [Hn Hf]]|Hlt]].
    - destruct (SFltb (time_done_after env 0) (double_of_int64 s)) eqn:H0.
      + right. intros j Hj. now replace j with 0%nat by lia.
      + left. exists 0%nat. split; [lia|]. split; [intros j Hj; lia|assumption].
    - left. exists n. split; [lia|assumption].
    - destruct (SFltb (time_done_after env (S b)) (double_of_int64 s)) eqn:Hb.
      + right. intros j Hj. destruct (Nat.eq_dec j (S b)) as [->|Hne];
          [assumption | apply Hlt; lia].
      + left. exists (S b). split; [lia|]. split; [|assumption].
        intros j Hj. apply Hlt. lia. }
  destruct (Hall k) as [H|H]; [exact H|].
  rewrite (H k (le_n k)) in Hk. discriminate.
Qed.

End KeepaliveLoop.

(** *** The session *)

(** The run of one second on the cooperative robot, event by event. *)
Example cooperative_run :
  main one_second_run cooperative_robot 10
  = ([ev_dashboard_connect "192.168.56.101"; ev_commandStop;
      ev_new_UrDriver "192.168.56.101" SCRIPT_FILE OUTPUT_RECIPE INPUT_RECIPE true;
      ev_checkCalibration CALIBRATION_CHECKSUM;
      ev_cout_program_running true; ev_notify_one;
      ev_wait_for 100;
      ev_getVersion;
      ev_startForceMode
        (startForceMode7 (vector6d 0 0 0 0 0 0) (vector6uint32 0 0 1 0 0 1)
                         (vector6d 0 0 (-2) 0 0 0) 2
                         (vector6d 0.1 0.1 1.5 3.14 3.14 0.5) 0.005 1.0);
      ev_steady_clock_now;
      ev_writeKeepalive; ev_steady_clock_now; ev_sleep_for 2;
      ev_writeKeepalive; ev_steady_clock_now; ev_sleep_for 2;
      ev_writeKeepalive; ev_steady_clock_now; ev_sleep_for 2;
      ev_writeKeepalive; ev_steady_clock_now; ev_sleep_for 2;
      ev_log_info "Timeout reached."; ev_endForceMode],
     Exited 0).
Proof. reflexivity. Qed.

(** Without arguments the default address is used and the loop runs
    until the process is interrupted. *)
Example default_run_keeps_looping :
  snd (main ["force_mode_example"] cooperative_robot 1000) = StillLooping
  /\ hd_error (fst (main ["force_mode_example"] cooperative_robot 1000))
     = Some (ev_dashboard_connect DEFAULT_ROBOT_IP).
Proof. split; reflexivity. Qed.

Lemma main_unfold (argv : list string) (env : Environment) (fuel : nat) :
  main argv env fuel =
  match parse_second_to_run argv env with
  | None => ([], Terminated)
  | Some second_to_run =>
      if negb (connect env)
      then ([ev_dashboard_connect (robot_ip_of argv);
             ev_log_error "Could not connect to dashboard"], Exited 1)
      else if negb (commandStop env)
      then ([ev_dashboard_connect (robot_ip_of argv); ev_commandStop;
             ev_log_error "Could not send stop program command"], Exited 1)
      else if negb (returned (session_wait env))
      then (startup_events argv env
            ++ [ev_log_error "External Control script not running."], Exited 1)
      else if negb (startForceMode env)
      then (startup_events argv env ++ start_events env
            ++ [ev_log_error "Failed to start force mode."], Exited 1)
      else
        match keepalive_loop env second_to_run fuel 0 (double_of_int64 0) (steady_clock_now env 0) with
        | (es, inl _) =>
            (startup_events argv env ++ start_events env
             ++ ev_steady_clock_now :: es
             ++ [ev_log_info "Timeout reached."; ev_endForceMode], Exited 0)
        | (es, inr o) =>
            (startup_events argv env ++ start_events env
             ++ ev_steady_clock_now :: es, o)
        end
  end.
Proof.
  unfold main, parse_second_to_run, startup_events, calibration_prefix, wait_events,
    start_events, session_wait, robot_ip_of.
  destruct (if 2 <? Z.of_nat (List.length argv)
            then stoi env (nth 2 argv "") else Some 0) as [s|] eqn:P.
  - replace (if 2 <? Z.of_nat (List.length argv)
             then match stoi env (nth 2 argv "") with
                  | Some n => ret n
                  | None => stop Terminated
                  end
             else ret 0) with (@ret Z s)
      by (destruct (2 <? Z.of_nat (List.length argv));
          [rewrite P; reflexivity | injection P as <-; reflexivity]).
    destruct (connect env); [|reflexivity].
    destruct (commandStop env); [|reflexivity].
    destruct (deliver (reports_before_wait env) initial_globals) as [g early].
    cbn [fst snd].
    destruct (keepalive_loop env s fuel 0 (double_of_int64 0) (steady_clock_now env 0)) as [es [[]|o]] eqn:L.
    all: destruct (checkCalibration env); destruct (returned _); destruct (startForceMode env).
    all: cbn; rewrite ?L; cbn; rewrite <- ?app_assoc; cbn; reflexivity.
  - destruct (2 <? Z.of_nat (List.length argv)); [|discriminate].
    rewrite P. reflexivity.
Qed.

(** [main] issues the start of force mode once if it gets past the wait,
    and not at all otherwise. *)
Lemma mode_starts_main (argv : list string) (env : Environment) (fuel : nat) :
  mode_starts (fst (main argv env fuel)) =
  if reaches_start argv env
  then [ev_startForceMode (start_force_mode_call (getVersion_major env))]
  else [].
Proof.
  rewrite main_unfold. unfold reaches_start.
  destruct (parse_second_to_run argv env) as [s|]; [|reflexivity].
  destruct (connect env); [|reflexivity].
  destruct (commandStop env); [|reflexivity].
  destruct (returned (session_wait env)); cbn [negb andb fst].
  - destruct (startForceMode env); cbn [negb].
    + destruct (keepalive_loop_events env s fuel 0 (double_of_int64 0) (steady_clock_now env 0))
        as [n [_ E]].
      destruct (keepalive_loop env s fuel 0 (double_of_int64 0) (steady_clock_now env 0)) as [es [[]|o]];
        cbn in E; subst es; cbn [fst];
        change (ev_steady_clock_now :: ?l) with ([ev_steady_clock_now] ++ l);
        rewrite !mode_starts_app, startup_no_start, iterations_no_start; reflexivity.
    + cbn [fst]. rewrite !mode_starts_app, startup_no_start. reflexivity.
  - rewrite mode_starts_app, startup_no_start. reflexivity.
Qed.

(** The results of [writeKeepalive] and [endForceMode] have no influence
    on the run. *)
Lemma main_ignores_keepalive_and_end
      (argv : list string) (env : Environment) (fuel : nat)
      (keepalive : nat -> bool) (ended : bool) :
  main argv (with_keepalive_and_end keepalive ended env) fuel = main argv env fuel.
Proof.
  rewrite !main_unfold.
  change (parse_second_to_run argv (with_keepalive_and_end keepalive ended env))
    with (parse_second_to_run argv env).
  change (session_wait (with_keepalive_and_end keepalive ended env))
    with (session_wait env).
  change (start_events (with_keepalive_and_end keepalive ended env))
    with (start_events env).
  change (startup_events argv (with_keepalive_and_end keepalive ended env))
    with (startup_events argv env).
  cbn [with_keepalive_and_end connect commandStop startForceMode steady_clock_now].
  destruct (parse_second_to_run argv env) as [s|]; [|reflexivity].
  rewrite (keepalive_loop_ext (with_keepalive_and_end keepalive ended env) env)
    by reflexivity.
  reflexivity.
Qed.

(** C1. Whenever [main] starts force mode, the call it issues has no
    gain-scaling argument if the reported major version is below 5 and
    has one if it is 5 or above; [getVersion] is asked right before that
    call, and it is the only start of force mode in the run. *)
Theorem start_force_mode_is_version_gated
        (argv : list string) (env : Environment) (fuel : nat) (c : StartForceMode) :
  In (ev_startForceMode c) (fst (main argv env fuel)) ->
  c = start_force_mode_call (getVersion_major env)
  /\ has_gain_scaling c = (5 <=? getVersion_major env)
  /\ exists post,
      fst (main argv env fuel)
      = startup_events argv env ++ ev_getVersion :: ev_startForceMode c :: post
      /\ mode_starts (startup_events argv env) = []
      /\ mode_starts post = [].
Proof.
  intros Hin.
  assert (Hc : c = start_force_mode_call (getVersion_major env)
               /\ reaches_start argv env = true).
  { apply In_mode_starts in Hin. rewrite mode_starts_main in Hin.
    destruct (reaches_start argv env); [|contradiction].
    destruct Hin as [E|[]]. injection E as <-. auto. }
  destruct Hc as [-> Hreach]. split; [reflexivity|]. split.
  - unfold start_force_mode_call.
    destruct (Z.ltb_spec (getVersion_major env) 5), (Z.leb_spec 5 (getVersion_major env));
      (reflexivity || lia).
  - unfold reaches_start in Hreach. rewrite main_unfold.
    destruct (parse_second_to_run argv env) as [s|]; [|discriminate].
    destruct (connect env); [|discriminate].
    destruct (commandStop env); [|discriminate].
    destruct (returned (session_wait env)); [|discriminate].
    cbn [negb]. unfold start_events.
    destruct (startForceMode env); cbn [negb].
    + destruct (keepalive_loop_events env s fuel 0 (double_of_int64 0) (steady_clock_now env 0))
        as [n [_ E]].
      destruct (keepalive_loop env s fuel 0 (double_of_int64 0) (steady_clock_now env 0)) as [es [[]|o]];
        cbn [fst] in *; subst es; eexists; (split; [reflexivity|]);
        (split; [apply startup_no_start|]);
        change (ev_steady_clock_now :: ?l) with ([ev_steady_clock_now] ++ l);
        rewrite ?mode_starts_app, iterations_no_start; reflexivity.
    + eexists. split; [reflexivity|]. split; [apply startup_no_start|reflexivity].
Qed.

Lemma start_force_mode_is_version_gated_witness :
  has_gain_scaling (start_force_mode_call 5) = true
  /\ exists post,
      fst (main one_second_run cooperative_robot 10)
      = startup_events one_second_run cooperative_robot
        ++ ev_getVersion :: ev_startForceMode (start_force_mode_call 5) :: post
      /\ mode_starts (startup_events one_second_run cooperative_robot) = []
      /\ mode_starts post = [].
Proof.
  destruct (start_force_mode_is_version_gated
              one_second_run cooperative_robot 10 (start_force_mode_call 5))
    as (_ & G & P).
  - vm_compute. repeat (first [left; reflexivity | right]).
  - split; [exact G | exact P].
Defined.

(** C4. When the wait made by [main] returns [false], no start of force
    mode is issued; a run that got as far as the wait logs that the
    external control script is not running and exits with code 1 right
    after the wait. *)
Theorem no_mode_start_unless_running
        (argv : list string) (env : Environment) (fuel : nat) :
  returned (session_wait env) = false ->
  mode_starts (fst (main argv env fuel)) = []
  /\ (parse_second_to_run argv env <> None ->
      connect env = true -> commandStop env = true ->
      main argv env fuel
      = (startup_events argv env
         ++ [ev_log_error "External Control script not running."], Exited 1)).
Proof.
  intros Hwait. split.
  - rewrite mode_starts_main. unfold reaches_start.
    rewrite Hwait, andb_false_r. now destruct (parse_second_to_run argv env).
  - intros Hparse Hc Hs. rewrite main_unfold.
    destruct (parse_second_to_run argv env); [|contradiction].
    now rewrite Hc, Hs, Hwait.
Qed.

Lemma no_mode_start_unless_running_witness :
  mode_starts (fst (main one_second_run silent_robot 10)) = []
  /\ main one_second_run silent_robot 10
     = (startup_events one_second_run silent_robot
        ++ [ev_log_error "External Control script not running."], Exited 1).
Proof.
  destruct (no_mode_start_unless_running one_second_run silent_robot 10) as [A B].
  - reflexivity.
  - split; [exact A | apply B; [discriminate | reflexivity | reflexivity]].
Defined.

(** C5. [main] returns 1 when the dashboard connection fails, when the
    stop command fails, when the script is not confirmed running and when
    force mode fails to start; [sendFreedriveMessageOrDie] exits with 1
    when the control message is rejected; and [main] returns 0 when the
    keepalive loop has ended, force mode being ended last.  A run that
    returns does so with 0 or 1. *)
Theorem exit_codes (argv : list string) (env : Environment) (fuel : nat) (s : Z) :
  parse_second_to_run argv env = Some s ->
  (connect env = false -> snd (main argv env fuel) = Exited 1)
  /\ (connect env = true -> commandStop env = false ->
      snd (main argv env fuel) = Exited 1)
  /\ (connect env = true -> commandStop env = true ->
      returned (session_wait env) = false ->
      snd (main argv env fuel) = Exited 1)
  /\ (connect env = true -> commandStop env = true ->
      returned (session_wait env) = true -> startForceMode env = false ->
      snd (main argv env fuel) = Exited 1)
  /\ (forall freedrive_action,
         snd (sendFreedriveMessageOrDie freedrive_action false) = inr (Exited 1))
  /\ (connect env = true -> commandStop env = true ->
      returned (session_wait env) = true -> startForceMode env = true ->
      forall es,
        keepalive_loop env s fuel 0 (double_of_int64 0) (steady_clock_now env 0) = (es, inl tt) ->
        main argv env fuel
        = (startup_events argv env ++ start_events env
           ++ ev_steady_clock_now :: es
           ++ [ev_log_info "Timeout reached."; ev_endForceMode], Exited 0))
  /\ (forall code, snd (main argv env fuel) = Exited code -> code = 0 \/ code = 1).
Proof.
  intros Hparse. rewrite main_unfold, Hparse.
  repeat split.
  - intros ->. reflexivity.
  - intros -> ->. reflexivity.
  - intros -> -> ->. reflexivity.
  - intros -> -> -> ->. reflexivity.
  - intros -> -> -> -> es ->. reflexivity.
  - intros code.
    destruct (connect env); cbn [negb snd]; [|intros [= <-]; auto].
    destruct (commandStop env); cbn [negb snd]; [|intros [= <-]; auto].
    destruct (returned (session_wait env)); cbn [negb snd]; [|intros [= <-]; auto].
    destruct (startForceMode env); cbn [negb snd]; [|intros [= <-]; auto].
    pose proof (keepalive_loop_outcome env s fuel 0 (double_of_int64 0) (steady_clock_now env 0)) as Hloop.
    destruct (keepalive_loop env s fuel 0 (double_of_int64 0) (steady_clock_now env 0)) as [es [[]|o]];
      cbn [snd] in *.
    + intros [= <-]; auto.
    + destruct Hloop as [Hloop|Hloop]; [discriminate|].
      injection Hloop as ->. discriminate.
Qed.

Lemma exit_codes_witness :
  snd (main one_second_run cooperative_robot 10) = Exited 0
  /\ snd (main one_second_run silent_robot 10) = Exited 1.
Proof.
  split.
  - destruct (exit_codes one_second_run cooperative_robot 10 1)
      as (_ & _ & _ & _ & _ & H & _); [reflexivity|].
    rewrite (H eq_refl eq_refl eq_refl eq_refl (iterations 4)); reflexivity.
  - destruct (exit_codes one_second_run silent_robot 10 1)
      as (_ & _ & H & _); [reflexivity|].
    apply H; reflexivity.
Defined.

(** C6 (amended). The results of [connect], [commandStop],
    [waitForProgramRunning] and [startForceMode] are checked: on failure
    [main] logs an error and returns 1 at once.  The result of
    [checkCalibration] is checked: on failure two errors are logged.  The
    results of [writeKeepalive] and [endForceMode] are discarded: the run
    does not depend on them. *)
Theorem checked_and_discarded_results
        (argv : list string) (env : Environment) (fuel : nat) (s : Z) :
  parse_second_to_run argv env = Some s ->
  (connect env = false ->
   main argv env fuel
   = ([ev_dashboard_connect (robot_ip_of argv);
       ev_log_error "Could not connect to dashboard"], Exited 1))
  /\ (connect env = true -> commandStop env = false ->
      main argv env fuel
      = ([ev_dashboard_connect (robot_ip_of argv); ev_commandStop;
          ev_log_error "Could not send stop program command"], Exited 1))
  /\ (checkCalibration env = false ->
      startup_events argv env
      = calibration_prefix argv ++ calibration_logs ++ wait_events env)
  /\ (connect env = true -> commandStop env = true ->
      returned (session_wait env) = false ->
      main argv env fuel
      = (startup_events argv env
         ++ [ev_log_error "External Control script not running."], Exited 1))
  /\ (connect env = true -> commandStop env = true ->
      returned (session_wait env) = true -> startForceMode env = false ->
      main argv env fuel
      = (startup_events argv env ++ start_events env
         ++ [ev_log_error "Failed to start force mode."], Exited 1))
  /\ (forall keepalive ended,
         main argv (with_keepalive_and_end keepalive ended env) fuel
         = main argv env fuel).
Proof.
  intros Hparse. rewrite main_unfold, Hparse. repeat split.
  - intros ->. reflexivity.
  - intros -> ->. reflexivity.
  - unfold startup_events. intros ->. reflexivity.
  - intros -> -> ->. reflexivity.
  - intros -> -> -> ->. reflexivity.
  - intros keepalive ended.
    rewrite main_ignores_keepalive_and_end, main_unfold, Hparse. reflexivity.
Qed.

Lemma checked_and_discarded_results_witness :
  main one_second_run silent_robot 5
  = (startup_events one_second_run silent_robot
     ++ [ev_log_error "External Control script not running."], Exited 1)
  /\ main one_second_run
          (with_keepalive_and_end (fun k => Nat.even k) false cooperative_robot) 5
     = main one_second_run cooperative_robot 5.
Proof.
  split.
  - destruct (checked_and_discarded_results one_second_run silent_robot 5 1)
      as (_ & _ & _ & H & _); [reflexivity|].
    apply H; reflexivity.
  - destruct (checked_and_discarded_results one_second_run cooperative_robot 5 1)
      as (_ & _ & _ & _ & _ & H); [reflexivity|].
    apply H.
Defined.

(** C6 (as the claim states it, refuted). A run in which every
    [writeKeepalive] and the final [endForceMode] fail is the same, event
    for event, as the run in which they succeed, and returns 0. *)
Lemma failed_keepalives_go_unnoticed :
  writeKeepalive
    (with_keepalive_and_end (fun _ => false) false cooperative_robot) 0 = false
  /\ endForceMode
       (with_keepalive_and_end (fun _ => false) false cooperative_robot) = false
  /\ main one_second_run
          (with_keepalive_and_end (fun _ => false) false cooperative_robot) 10
     = main one_second_run cooperative_robot 10
  /\ snd (main one_second_run
               (with_keepalive_and_end (fun _ => false) false cooperative_robot) 10)
     = Exited 0
  /\ List.length
       (filter is_keepalive
          (fst (main one_second_run
                     (with_keepalive_and_end (fun _ => false) false cooperative_robot)
                     10))) = 4%nat.
Proof. repeat split. Qed.



Lemma tenth_of_a_second_expiry : accumulated_expiry tenth_of_a_second_robot 1 11.
Proof.
  split.
  - intros k Hk. do 11 (destruct k as [|k]; [vm_compute; reflexivity|]). lia.
  - vm_compute. reflexivity.
Defined.


(** C9. A calibration mismatch changes nothing but the log: the run with
    a mismatch ends the same way as the run without, and its events are
    those of the run without, with the two error messages added right
    after the calibration check and before the wait for the script. *)
Theorem calibration_mismatch_is_not_fatal
        (argv : list string) (env : Environment) (fuel : nat) :
  snd (main argv (with_checkCalibration false env) fuel)
  = snd (main argv (with_checkCalibration true env) fuel)
  /\ (parse_second_to_run argv env <> None ->
      connect env = true -> commandStop env = true ->
      exists rest,
        fst (main argv (with_checkCalibration true env) fuel)
        = calibration_prefix argv ++ wait_events env ++ rest
        /\ fst (main argv (with_checkCalibration false env) fuel)
           = calibration_prefix argv ++ calibration_logs ++ wait_events env ++ rest).
Proof.
  rewrite !main_unfold.
  change (parse_second_to_run argv (with_checkCalibration ?b env))
    with (parse_second_to_run argv env).
  change (session_wait (with_checkCalibration ?b env)) with (session_wait env).
  change (start_events (with_checkCalibration ?b env)) with (start_events env).
  unfold startup_events.
  change (wait_events (with_checkCalibration ?b env)) with (wait_events env).
  cbn [with_checkCalibration connect commandStop checkCalibration startForceMode
       steady_clock_now].
  destruct (parse_second_to_run argv env) as [s|].
  - rewrite (keepalive_loop_ext (with_checkCalibration false env) env)
      by reflexivity.
    rewrite (keepalive_loop_ext (with_checkCalibration true env) env)
      by reflexivity.
    destruct (connect env); cbn [negb]; [|split; [reflexivity|discriminate]].
    destruct (commandStop env); cbn [negb];
      [|split; [reflexivity|intros _ _; discriminate]].
    destruct (returned (session_wait env)); cbn [negb].
    + destruct (startForceMode env); cbn [negb].
      * destruct (keepalive_loop env s fuel 0 (double_of_int64 0) (steady_clock_now env 0))
          as [es [[]|o]]; (split; [reflexivity|]); intros _ _ _;
          eexists; cbn [fst app]; rewrite <- ?app_assoc; split; reflexivity.
      * split; [reflexivity|]. intros _ _ _.
        eexists; cbn [fst app]; rewrite <- ?app_assoc; split; reflexivity.
    + split; [reflexivity|]. intros _ _ _.
      eexists; cbn [fst app]; rewrite <- ?app_assoc; split; reflexivity.
  - split; [reflexivity|]. intros H. contradiction.
Qed.

Lemma calibration_mismatch_is_not_fatal_witness :
  snd (main one_second_run (with_checkCalibration false cooperative_robot) 10)
  = Exited 0
  /\ exists rest,
      fst (main one_second_run (with_checkCalibration false cooperative_robot) 10)
      = calibration_prefix one_second_run ++ calibration_logs
        ++ wait_events cooperative_robot ++ rest.
Proof.
  destruct (calibration_mismatch_is_not_fatal one_second_run cooperative_robot 10)
    as [A B].
  split.
  - rewrite A. reflexivity.
  - destruct B as (rest & _ & Hbad);
      [discriminate | reflexivity | reflexivity | ].
    exists rest. exact Hbad.
Defined.

(** ** Further properties *)

(** *** The callback *)

(** X1. Callbacks never clear the running flag: after any sequence of
    reports the flag is set exactly if it was set before or one of the
    reports was [true]; and [notify_one] is called once for every report
    of [true] and never for a report of [false]. *)
Theorem reports_only_ever_set_the_flag (reports : list bool) (g : Globals) :
  g_program_running (fst (deliver reports g))
  = g_program_running g || existsb (fun b => b) reports
  /\ List.length (filter is_notify (snd (deliver reports g)))
     = List.length (filter (fun b => b) reports).
Proof.
  split; [apply deliver_flag|].
  revert g. induction reports as [|b rest IH]; intros g; [reflexivity|].
  cbn [deliver].
  destruct (handleRobotProgramState b g) as [g1 e1] eqn:Hb.
  specialize (IH g1). destruct (deliver rest g1) as [g2 e2]. cbn [snd] in *.
  rewrite filter_app, length_app, IH.
  destruct b; injection Hb as _ <-; reflexivity.
Qed.

(** *** The wait *)

(** A wait that ends by timeout has lasted [rel_time]. *)
Lemma wait_for_timeout_elapsed (rel_time : Z) (during : list Wakeup) (g : Globals) :
  status (wait_for rel_time during g) = timeout ->
  elapsed_ms (wait_for rel_time during g) = rel_time.
Proof.
  revert g. induction during as [|[t b|t] rest IH]; intros g; cbn.
  - reflexivity.
  - destruct (rel_time <=? t); [reflexivity|].
    destruct (handleRobotProgramState b g) as [g1 e1].
    destruct (notifies e1); cbn; [discriminate|apply IH].
  - destruct (rel_time <=? t); cbn; [reflexivity|discriminate].
Qed.

(** X2. When [waitForProgramRunning] returns [false] it has blocked for
    its whole timeout, and the running flag was unset when it was called
    and is unset when it returns. *)
Theorem false_return_means_timeout_and_unset_flag
        (ms : Z) (during : list Wakeup) (g : Globals) :
  returned (waitForProgramRunning ms during g) = false ->
  blocked_ms (waitForProgramRunning ms during g) = Z.max 0 ms
  /\ g_program_running g = false
  /\ g_program_running (globals_on_return (waitForProgramRunning ms during g)) = false.
Proof.
  unfold waitForProgramRunning. cbn [returned blocked_ms globals_on_return].
  intros Hret.
  destruct (status (wait_for (Z.max 0 ms) during g)) eqn:Hst; [discriminate|].
  destruct (g_program_running (globals_after (wait_for (Z.max 0 ms) during g)))
    eqn:Hflag; [discriminate|].
  repeat split.
  - apply wait_for_timeout_elapsed. assumption.
  - destruct (g_program_running g) eqn:Hg; [|reflexivity].
    rewrite (wait_for_keeps_flag _ during g Hg) in Hflag. discriminate.
Qed.

Lemma false_return_means_timeout_and_unset_flag_witness :
  blocked_ms (waitForProgramRunning 100 [callback 40 false; callback 120 true]
                                    initial_globals) = 100
  /\ g_program_running
       (globals_on_return
          (waitForProgramRunning 100 [callback 40 false; callback 120 true]
                                 initial_globals)) = false.
Proof.
  destruct (false_return_means_timeout_and_unset_flag
              100 [callback 40 false; callback 120 true] initial_globals)
    as (B & _ & F); [reflexivity|].
  split; [exact B | exact F].
Defined.

(** X3. A report of [true] that arrives during the wait, before the
    timeout, ends the wait at that moment: the call returns [true] with
    the flag set, however many reports of [false] came before it and
    whatever would have come after it. *)
Theorem report_during_wait_ends_it
        (ms t : Z) (earlier : list Z) (later : list Wakeup) (g : Globals) :
  Forall (fun t' => t' <= t) earlier ->
  t < Z.max 0 ms ->
  let during := map (fun t' => callback t' false) earlier
                    ++ callback t true :: later in
  returned (waitForProgramRunning ms during g) = true
  /\ blocked_ms (waitForProgramRunning ms during g) = t
  /\ g_program_running (globals_on_return (waitForProgramRunning ms during g)) = true.
Proof.
  intros Hearlier Ht during. subst during.
  unfold waitForProgramRunning. cbn [returned blocked_ms globals_on_return].
  assert (W : status (wait_for (Z.max 0 ms)
                        (map (fun t' => callback t' false) earlier
                             ++ callback t true :: later) g) = no_timeout
              /\ elapsed_ms (wait_for (Z.max 0 ms)
                              (map (fun t' => callback t' false) earlier
                                   ++ callback t true :: later) g) = t
              /\ g_program_running
                   (globals_after (wait_for (Z.max 0 ms)
                                     (map (fun t' => callback t' false) earlier
                                          ++ callback t true :: later) g)) = true).
  { induction Hearlier as [|t' earlier Ht' _ IH]; cbn.
    - destruct (Z.leb_spec (Z.max 0 ms) t); [lia|]. cbn. auto.
    - destruct (Z.leb_spec (Z.max 0 ms) t'); [lia|]. cbn. exact IH. }
  destruct W as (-> & -> & ->). auto.
Qed.

Lemma report_during_wait_ends_it_witness :
  returned (waitForProgramRunning 100
              [callback 5 false; callback 20 false; callback 30 true; spurious 50]
              initial_globals) = true
  /\ blocked_ms (waitForProgramRunning 100
                   [callback 5 false; callback 20 false; callback 30 true; spurious 50]
                   initial_globals) = 30.
Proof.
  destruct (report_during_wait_ends_it 100 30 [5; 20] [spurious 50] initial_globals)
    as (R & B & _).
  - repeat constructor; lia.
  - lia.
  - split; [exact R | exact B].
Defined.

(** X4. With a timeout of zero or less the call does not block: it
    returns the value the flag has at that moment and leaves the globals
    alone, whatever happens afterwards. *)
Theorem nonpositive_timeout_reads_the_flag
        (ms : Z) (during : list Wakeup) (g : Globals) :
  ms <= 0 ->
  Forall (fun w => 0 <= wakeup_time w) during ->
  waitForProgramRunning ms during g
  = {| returned := g_program_running g;
       blocked_ms := 0;
       globals_on_return := g;
       events_of_wait := [ev_wait_for ms] |}.
Proof.
  intros Hms Hdur. unfold waitForProgramRunning.
  replace (Z.max 0 ms) with 0 by lia.
  assert (W : wait_for 0 during g
              = {| status := timeout; elapsed_ms := 0;
                   globals_after := g; events_during := [] |}).
  { destruct Hdur as [|[t b|t] rest Hw _]; cbn in *; [reflexivity| |];
      destruct (Z.leb_spec 0 t); (reflexivity || lia). }
  rewrite W. cbn. destruct (g_program_running g); reflexivity.
Qed.

Lemma nonpositive_timeout_reads_the_flag_witness :
  waitForProgramRunning (-5) [callback 0 true] initial_globals
  = {| returned := false;
       blocked_ms := 0;
       globals_on_return := initial_globals;
       events_of_wait := [ev_wait_for (-5)] |}.
Proof.
  apply (nonpositive_timeout_reads_the_flag (-5) [callback 0 true] initial_globals).
  - lia.
  - repeat constructor. cbn. lia.
Defined.

(** The value returned after a chronological sequence of occurrences. *)
Lemma wait_for_verdict (rel_time : Z) (during : list Wakeup) (g : Globals) :
  chronological during ->
  cv_status_eqb (status (wait_for rel_time during g)) no_timeout
  || g_program_running (globals_after (wait_for rel_time during g))
  = g_program_running g || existsb (wakes rel_time) during.
Proof.
  unfold chronological. revert g.
  induction during as [|w rest IH]; intros g Hsorted; cbn.
  - now rewrite orb_false_r.
  - cbn in Hsorted. apply StronglySorted_inv in Hsorted as [Hrest Hhead].
    assert (Hlate : rel_time <= wakeup_time w -> existsb (wakes rel_time) rest = false).
    { intros Hle. clear - Hle Hhead.
      induction rest as [|w' rest IH']; [reflexivity|].
      cbn in *. apply Forall_cons_iff in Hhead as [Hw' Hhead].
      rewrite (IH' Hhead), orb_false_r.
      destruct w' as [t' b'|t']; cbn in *.
      - destruct (Z.ltb_spec t' rel_time); [lia|reflexivity].
      - apply Z.ltb_ge. lia. }
    destruct w as [t b|t]; cbn in *.
    + destruct (Z.leb_spec rel_time t).
      * cbn. rewrite (Hlate H). destruct (Z.ltb_spec t rel_time); [lia|].
        cbn. now rewrite ?orb_false_r.
      * destruct (Z.ltb_spec t rel_time); [|lia].
        destruct b; cbn.
        -- now rewrite !orb_true_r.
        -- apply (IH g Hrest).
    + destruct (Z.leb_spec rel_time t).
      * cbn. rewrite (Hlate H). destruct (Z.ltb_spec t rel_time); [lia|].
        cbn. now rewrite ?orb_false_r.
      * destruct (Z.ltb_spec t rel_time); [|lia].
        cbn. now rewrite orb_true_r.
Qed.

(** X5. For occurrences listed in the order of their times,
    [waitForProgramRunning] returns [true] exactly if the flag was set
    when it was called or something unblocks the wait before the timeout:
    a report of [true] or a spurious wakeup. *)
Theorem wait_returns_true_iff_set_or_woken
        (ms : Z) (during : list Wakeup) (g : Globals) :
  chronological during ->
  returned (waitForProgramRunning ms during g)
  = g_program_running g || existsb (wakes (Z.max 0 ms)) during.
Proof.
  intros Hsorted. unfold waitForProgramRunning. cbn [returned].
  rewrite <- (wait_for_verdict (Z.max 0 ms) during g Hsorted).
  destruct (cv_status_eqb _ _); [reflexivity|].
  destruct (g_program_running _); reflexivity.
Qed.

Lemma wait_returns_true_iff_set_or_woken_witness :
  returned (waitForProgramRunning 100
              [callback 10 false; callback 100 true; spurious 130] initial_globals)
  = false.
Proof.
  rewrite (wait_returns_true_iff_set_or_woken 100
             [callback 10 false; callback 100 true; spurious 130] initial_globals).
  - reflexivity.
  - unfold chronological. cbn. repeat constructor; lia.
Defined.

(** *** The shapes of a run *)

Lemma filter_nil_of_kind (kind f : Event -> bool) (l : list Event) :
  (forall e, kind e = true -> f e = false) ->
  forallb kind l = true -> filter f l = [].
Proof.
  intros Hk. induction l as [|e l IH]; cbn; [reflexivity|].
  intros H. apply andb_prop in H as [He Hl].
  rewrite (Hk e He). auto.
Qed.

Lemma not_in_of_kind (kind : Event -> bool) (l : list Event) (e : Event) :
  forallb kind l = true -> kind e = false -> ~ In e l.
Proof.
  intros Hl He Hin. rewrite forallb_forall in Hl.
  rewrite (Hl e Hin) in He. discriminate.
Qed.

Lemma handler_events_kind (b : bool) (g : Globals) :
  forallb wait_kind (snd (handleRobotProgramState b g)) = true.
Proof. destruct b; reflexivity. Qed.

Lemma deliver_events_kind (reports : list bool) (g : Globals) :
  forallb wait_kind (snd (deliver reports g)) = true.
Proof.
  revert g. induction reports as [|b rest IH]; intros g; cbn; [reflexivity|].
  pose proof (handler_events_kind b g) as Hb.
  destruct (handleRobotProgramState b g) as [g1 e1].
  specialize (IH g1). destruct (deliver rest g1) as [g2 e2].
  cbn [snd] in *. now rewrite forallb_app, Hb, IH.
Qed.

Lemma wait_for_events_kind (rel_time : Z) (during : list Wakeup) (g : Globals) :
  forallb wait_kind (events_during (wait_for rel_time during g)) = true.
Proof.
  revert g. induction during as [|[t b|t] rest IH]; intros g; cbn.
  - reflexivity.
  - destruct (rel_time <=? t); [reflexivity|].
    pose proof (handler_events_kind b g) as Hb.
    destruct (handleRobotProgramState b g) as [g1 e1]. cbn [snd] in Hb.
    destruct (notifies e1); cbn [events_during]; [assumption|].
    now rewrite forallb_app, Hb, IH.
  - destruct (rel_time <=? t); reflexivity.
Qed.

Lemma wait_events_kind (env : Environment) :
  forallb wait_kind (wait_events env) = true.
Proof.
  unfold wait_events, session_wait, waitForProgramRunning. cbn [events_of_wait].
  rewrite forallb_app, deliver_events_kind. cbn.
  apply wait_for_events_kind.
Qed.

Lemma startup_events_kind (argv : list string) (env : Environment) :
  forallb startup_kind (startup_events argv env) = true.
Proof.
  unfold startup_events. rewrite !forallb_app.
  assert (W : forallb startup_kind (wait_events env) = true).
  { pose proof (wait_events_kind env) as H. rewrite forallb_forall in *.
    intros e He. specialize (H e He). destruct e; (reflexivity || discriminate). }
  rewrite W. destruct (checkCalibration env); reflexivity.
Qed.

Lemma iterations_kind (n : nat) : forallb loop_kind (iterations n) = true.
Proof. induction n; cbn; auto. Qed.

(** The loop ends after some whole iterations, or has used up all the
    iterations it was allowed. *)
Lemma keepalive_loop_result (env : Environment) (s : Z) (fuel k : nat) (td : spec_float) (last : Z) :
  (exists n, (n <= fuel)%nat
             /\ keepalive_loop env s fuel k td last = (iterations n, inl tt))
  \/ keepalive_loop env s fuel k td last = (iterations fuel, inr StillLooping).
Proof.
  revert k td last. induction fuel as [|fuel IH]; intros k td last; cbn.
  - destruct (_ || _); [right; reflexivity|].
    left. exists 0%nat. split; [lia|reflexivity].
  - destruct (_ || _).
    + destruct (IH (S k) (SF64add td (seconds_of_nanoseconds (steady_clock_now env (S k) - last)))
                   (steady_clock_now env (S k))) as [[n [Hn E]]|E]; cbn; rewrite E.
      * left. exists (S n). split; [lia|reflexivity].
      * right. reflexivity.
    + left. exists 0%nat. split; [lia|reflexivity].
Qed.

Lemma main_runs (argv : list string) (env : Environment) (fuel : nat) :
  Run argv env fuel (main argv env fuel).
Proof.
  rewrite main_unfold.
  destruct (parse_second_to_run argv env) as [s|] eqn:P;
    [|now apply run_bad_argument].
  destruct (connect env) eqn:C; [|now apply run_no_dashboard].
  destruct (commandStop env) eqn:S; [|now apply run_no_stop].
  destruct (returned (session_wait env)) eqn:W; [|now apply run_not_running].
  destruct (startForceMode env) eqn:F; [|now apply run_no_force_mode].
  cbn [negb].
  destruct (keepalive_loop_result env s fuel 0 (double_of_int64 0) (steady_clock_now env 0))
    as [[n [Hn E]]|E]; rewrite E.
  - now apply run_completed.
  - now apply run_still_looping.
Qed.

(** Membership of an event in a run, by the parts of the run. *)
Ltac in_parts H :=
  unfold startup_events, start_events, calibration_prefix, calibration_logs in H;
  repeat first [ rewrite in_app_iff in H | progress cbn [In fst] in H ];
  repeat match goal with
         | H' : _ \/ _ |- _ => destruct H' as [H'|H']
         | H' : In _ (if ?c then _ else _) |- _ => destruct c; cbn [In] in H'
         end.

Ltac wrong_part :=
  match goal with
  | H : False |- _ => destruct H
  | H : In _ (wait_events _) |- _ =>
      exfalso; revert H; apply (not_in_of_kind wait_kind);
      [apply wait_events_kind | reflexivity]
  | H : In _ (iterations _) |- _ =>
      exfalso; revert H; apply (not_in_of_kind loop_kind);
      [apply iterations_kind | reflexivity]
  | H : _ = _ |- _ => discriminate H
  end.

(** *** The order of the session *)

(** X6. The stop command is sent only after the dashboard connection
    succeeded, and the driver is created (which deploys the script) only
    after both succeeded; the driver is given the address the dashboard
    client was given. *)
Theorem driver_created_only_after_connect_and_stop
        (argv : list string) (env : Environment) (fuel : nat) :
  (In ev_commandStop (fst (main argv env fuel)) -> connect env = true)
  /\ (forall ip script output_recipe input_recipe headless,
         In (ev_new_UrDriver ip script output_recipe input_recipe headless)
            (fst (main argv env fuel)) ->
         connect env = true /\ commandStop env = true
         /\ In (ev_dashboard_connect ip) (fst (main argv env fuel))).
Proof.
  generalize (main_runs argv env fuel). generalize (main argv env fuel).
  intros r R. split.
  - intros H. destruct R; try assumption; in_parts H; wrong_part.
  - intros ip sf orc irc h H.
    destruct R; in_parts H; try wrong_part;
      (split; [assumption|]); (split; [assumption|]);
      injection H as <- _ _ _ _; unfold startup_events, calibration_prefix;
      cbn; auto.
Qed.

Lemma driver_created_only_after_connect_and_stop_witness :
  connect cooperative_robot = true /\ commandStop cooperative_robot = true
  /\ In (ev_dashboard_connect "192.168.56.101")
        (fst (main one_second_run cooperative_robot 10)).
Proof.
  destruct (driver_created_only_after_connect_and_stop
              one_second_run cooperative_robot 10) as [_ H].
  apply (H "192.168.56.101" SCRIPT_FILE OUTPUT_RECIPE INPUT_RECIPE true).
  vm_compute. repeat (first [left; reflexivity | right]).
Defined.

Lemma startup_never_ends_force_mode (argv : list string) (env : Environment) :
  filter is_end (startup_events argv env) = [].
Proof.
  apply (filter_nil_of_kind startup_kind); [|apply startup_events_kind].
  intros [] H; (reflexivity || discriminate).
Qed.

Lemma iterations_never_end_force_mode (n : nat) : filter is_end (iterations n) = [].
Proof. induction n; cbn; auto. Qed.

(** X7. [endForceMode] is called exactly in the runs that return 0, once,
    as the last thing [main] does, and in such a run force mode was
    started exactly once; a run that fails or is still in its loop never
    ends force mode. *)
Theorem force_mode_ended_iff_returned_zero
        (argv : list string) (env : Environment) (fuel : nat) :
  filter is_end (fst (main argv env fuel))
  = (if returned_zero (snd (main argv env fuel)) then [ev_endForceMode] else [])
  /\ (returned_zero (snd (main argv env fuel)) = true ->
      last (fst (main argv env fuel)) ev_getVersion = ev_endForceMode
      /\ mode_starts (fst (main argv env fuel))
         = [ev_startForceMode (start_force_mode_call (getVersion_major env))]).
Proof.
  generalize (main_runs argv env fuel). generalize (main argv env fuel).
  intros r R.
  destruct R; cbn [fst snd returned_zero]; (split; [|try discriminate]);
    try reflexivity; unfold start_events;
    change (ev_steady_clock_now :: ?l) with ([ev_steady_clock_now] ++ l);
    rewrite ?filter_app, ?startup_never_ends_force_mode,
      ?iterations_never_end_force_mode; try reflexivity.
  intros _. split.
  - change [ev_log_info "Timeout reached."; ev_endForceMode]
      with ([ev_log_info "Timeout reached."] ++ [ev_endForceMode]).
    rewrite !app_assoc. apply last_last.
  - unfold mode_starts.
    rewrite !filter_app. fold (mode_starts (startup_events argv env)).
    fold (mode_starts (iterations n)).
    rewrite startup_no_start, iterations_no_start. reflexivity.
Qed.

Lemma force_mode_ended_iff_returned_zero_witness :
  last (fst (main one_second_run cooperative_robot 10)) ev_getVersion
  = ev_endForceMode
  /\ mode_starts (fst (main one_second_run cooperative_robot 10))
     = [ev_startForceMode (start_force_mode_call 5)].
Proof.
  destruct (force_mode_ended_iff_returned_zero one_second_run cooperative_robot 10)
    as [_ H].
  apply H. reflexivity.
Defined.

Lemma prefix_without (x : Event) (A B pre post : list Event) :
  A ++ B = pre ++ x :: post -> ~ In x A -> exists pre', pre = A ++ pre'.
Proof.
  revert pre. induction A as [|a A IH]; intros pre E Hx.
  - exists pre. reflexivity.
  - destruct pre as [|p pre]; cbn in E.
    + injection E as -> _. exfalso. apply Hx. left. reflexivity.
    + injection E as -> E.
      destruct (IH pre E) as [pre' ->].
      * intros Hin. apply Hx. right. assumption.
      * exists pre'. reflexivity.
Qed.

(** X8. No keepalive is written before force mode has been started
    successfully: wherever a [writeKeepalive] stands in a run, the call of
    [startForceMode] stands before it and has succeeded. *)
Theorem keepalives_follow_a_successful_start
        (argv : list string) (env : Environment) (fuel : nat)
        (pre post : list Event) :
  fst (main argv env fuel) = pre ++ ev_writeKeepalive :: post ->
  startForceMode env = true
  /\ In (ev_startForceMode (start_force_mode_call (getVersion_major env))) pre.
Proof.
  generalize (main_runs argv env fuel). generalize (main argv env fuel).
  intros r R E.
  assert (Hin : In ev_writeKeepalive (fst r)) by (rewrite E; apply in_elt).
  assert (Hstartup : ~ In ev_writeKeepalive
                       (startup_events argv env ++ start_events env
                        ++ [ev_steady_clock_now])).
  { intros H. in_parts H; wrong_part. }
  destruct R; cbn [fst] in *;
    try (in_parts Hin; wrong_part);
    (split; [assumption|]);
    change (ev_steady_clock_now :: ?l) with ([ev_steady_clock_now] ++ l) in E;
    rewrite 2!app_assoc in E; rewrite <- (app_assoc (startup_events argv env)) in E;
    destruct (prefix_without _ _ _ _ _ E Hstartup) as [pre' ->];
    rewrite !in_app_iff; left; right; left; unfold start_events; cbn; auto.
Qed.

Lemma keepalives_follow_a_successful_start_witness :
  startForceMode cooperative_robot = true
  /\ In (ev_startForceMode (start_force_mode_call 5))
        (startup_events one_second_run cooperative_robot
         ++ start_events cooperative_robot ++ [ev_steady_clock_now]).
Proof.
  apply (keepalives_follow_a_successful_start
           one_second_run cooperative_robot 10
           (startup_events one_second_run cooperative_robot
            ++ start_events cooperative_robot ++ [ev_steady_clock_now])
           (ev_steady_clock_now :: ev_sleep_for 2 :: iterations 3
            ++ [ev_log_info "Timeout reached."; ev_endForceMode])).
  reflexivity.
Defined.

(** *** The run duration *)

(** A negative count converts to a [double] that zero is not below. *)
Lemma zero_not_below_negative (s : Z) :
  s < 0 -> SFltb (double_of_int64 0) (double_of_int64 s) = false.
Proof.
  intros Hs. destruct s as [|p|p]; try lia.
  unfold double_of_int64, binary_normalize, binary_round.
  destruct (shl_align _ _ _) as [mz ez]. unfold binary_round_aux.
  destruct (shr_fexp _ _ _ _ _) as [m1 e1].
  destruct (shr_fexp _ _ _ _ _) as [m2 e2].
  destruct (shr_m m2); [reflexivity| |reflexivity].
  destruct (_ <=? _); reflexivity.
Qed.

(** X9. With a negative run duration the loop body is never entered:
    [main] ends force mode right after starting it, without a single
    keepalive, and returns 0. *)
Theorem negative_duration_sends_no_keepalive
        (argv : list string) (env : Environment) (fuel : nat) (s : Z) :
  parse_second_to_run argv env = Some s -> s < 0 ->
  connect env = true -> commandStop env = true ->
  returned (session_wait env) = true -> startForceMode env = true ->
  main argv env fuel
  = (startup_events argv env ++ start_events env
     ++ [ev_steady_clock_now; ev_log_info "Timeout reached."; ev_endForceMode],
     Exited 0).
Proof.
  intros Hparse Hs Hc Hst Hw Hf.
  rewrite main_unfold, Hparse, Hc, Hst, Hw, Hf. cbn [negb].
  assert (C : SFltb (double_of_int64 0) (double_of_int64 s) || (s =? 0) = false).
  { apply orb_false_iff.
    split; [apply zero_not_below_negative; assumption | apply Z.eqb_neq; lia]. }
  destruct fuel; cbn [keepalive_loop]; rewrite C; reflexivity.
Qed.

Lemma negative_duration_sends_no_keepalive_witness :
  main ["force_mode_example"; "192.168.56.101"; "-3"]
       (with_stoi (fun _ => Some (-3)) cooperative_robot) 0
  = (startup_events ["force_mode_example"; "192.168.56.101"; "-3"] cooperative_robot
     ++ start_events cooperative_robot
     ++ [ev_steady_clock_now; ev_log_info "Timeout reached."; ev_endForceMode],
     Exited 0).
Proof.
  apply (negative_duration_sends_no_keepalive
           ["force_mode_example"; "192.168.56.101"; "-3"]
           (with_stoi (fun _ => Some (-3)) cooperative_robot) 0 (-3));
    (reflexivity || lia).
Defined.

(** *** The command line *)

Lemma main_argv_ext (argv argv' : list string) (env : Environment) (fuel : nat) :
  robot_ip_of argv = robot_ip_of argv' ->
  parse_second_to_run argv env = parse_second_to_run argv' env ->
  main argv env fuel = main argv' env fuel.
Proof.
  intros Hip Hparse. rewrite !main_unfold.
  unfold startup_events, calibration_prefix. rewrite Hip, Hparse. reflexivity.
Qed.

(** X11. [main] reads nothing of its command line but [argv[1]] and
    [argv[2]]: the program name and any further arguments make no
    difference to the run. *)
Theorem only_two_arguments_are_read
        (name name' ip seconds : string) (further : list string)
        (env : Environment) (fuel : nat) :
  main (name :: ip :: seconds :: further) env fuel
  = main [name'; ip; seconds] env fuel
  /\ main [name; ip] env fuel = main [name'; ip] env fuel
  /\ main [name] env fuel = main [] env fuel.
Proof.
  assert (Hip : forall n rest, robot_ip_of (n :: ip :: rest) = ip).
  { intros n rest. unfold robot_ip_of. cbn [List.length nth].
    destruct (Z.ltb_spec 1 (Z.of_nat (S (S (List.length rest))))); [reflexivity|lia]. }
  assert (Hsec : forall n rest,
             parse_second_to_run (n :: ip :: seconds :: rest) env
             = stoi env seconds).
  { intros n rest. unfold parse_second_to_run. cbn [List.length nth].
    destruct (Z.ltb_spec 2 (Z.of_nat (S (S (S (List.length rest)))))); [reflexivity|lia]. }
  split; [|split]; apply main_argv_ext.
  - now rewrite !Hip.
  - now rewrite !Hsec.
  - now rewrite !Hip.
  - reflexivity.
  - reflexivity.
  - reflexivity.
Qed.

(** X12. [std::stoi] is consulted only if a second argument is given:
    without one the run does not depend on it and is never terminated by
    an exception; with one that it rejects, the process is terminated
    before anything else is done. *)
Theorem duration_is_parsed_only_if_given
        (argv : list string) (env : Environment) (fuel : nat) :
  ((List.length argv <= 2)%nat ->
   (forall f, main argv (with_stoi f env) fuel = main argv env fuel)
   /\ snd (main argv env fuel) <> Terminated)
  /\ ((2 < List.length argv)%nat -> stoi env (nth 2 argv "") = None ->
      main argv env fuel = ([], Terminated)).
Proof.
  split.
  - intros Hlen.
    assert (Hparse : forall e, parse_second_to_run argv e = Some 0).
    { intros e. unfold parse_second_to_run.
      destruct (Z.ltb_spec 2 (Z.of_nat (List.length argv))); [lia|reflexivity]. }
    split.
    + intros f. rewrite !main_unfold, !Hparse.
      change (session_wait (with_stoi f env)) with (session_wait env).
      change (start_events (with_stoi f env)) with (start_events env).
      change (startup_events argv (with_stoi f env)) with (startup_events argv env).
      cbn [with_stoi connect commandStop startForceMode steady_clock_now].
      rewrite (keepalive_loop_ext (with_stoi f env) env) by reflexivity.
      reflexivity.
    + generalize (main_runs argv env fuel). generalize (main argv env fuel).
      intros r R. destruct R; cbn [snd]; try discriminate.
      rewrite Hparse in H. discriminate.
  - intros Hlen Hstoi. rewrite main_unfold. unfold parse_second_to_run.
    destruct (Z.ltb_spec 2 (Z.of_nat (List.length argv))); [|lia].
    rewrite Hstoi. reflexivity.
Qed.

Lemma duration_is_parsed_only_if_given_witness :
  main ["force_mode_example"; "192.168.56.101"; "soon"] cooperative_robot 10
  = ([], Terminated)
  /\ main ["force_mode_example"; "192.168.56.101"]
          (with_stoi (fun _ => None) cooperative_robot) 10
     = main ["force_mode_example"; "192.168.56.101"] cooperative_robot 10.
Proof.
  split.
  - apply (duration_is_parsed_only_if_given
             ["force_mode_example"; "192.168.56.101"; "soon"] cooperative_robot 10);
      [cbn; lia | reflexivity].
  - apply (duration_is_parsed_only_if_given
             ["force_mode_example"; "192.168.56.101"] cooperative_robot 10).
    cbn; lia.
Defined.

(** *** Readiness *)

(** X13. For occurrences listed in the order of their times, [main]
    starts force mode exactly if the duration argument was accepted, the
    dashboard connected, the stop command went through, and the script
    was reported running before the wait or something unblocked the wait
    within its 100 ms; it then starts it once. *)
Theorem force_mode_started_iff_ready
        (argv : list string) (env : Environment) (fuel : nat) :
  chronological (during_wait env) ->
  mode_starts (fst (main argv env fuel))
  = if match parse_second_to_run argv env with Some _ => true | None => false end
       && connect env && commandStop env && ready env
    then [ev_startForceMode (start_force_mode_call (getVersion_major env))]
    else [].
Proof.
  intros Hsorted. rewrite mode_starts_main. unfold reaches_start.
  assert (Hready : returned (session_wait env) = ready env).
  { pose proof (wait_for_verdict 100 (during_wait env)
                  (fst (deliver (reports_before_wait env) initial_globals))
                  Hsorted) as V.
    rewrite deliver_flag in V. cbn [initial_globals g_program_running orb] in V.
    unfold session_wait, waitForProgramRunning, ready. cbn [returned].
    change (Z.max 0 100) with 100. rewrite <- V.
    destruct (cv_status_eqb _ _); [reflexivity|].
    destruct (g_program_running _); reflexivity. }
  rewrite Hready.
  destruct (parse_second_to_run argv env); reflexivity.
Qed.

Lemma force_mode_started_iff_ready_witness :
  mode_starts (fst (main one_second_run silent_robot 10)) = []
  /\ mode_starts (fst (main one_second_run spuriously_woken_robot 10))
     = [ev_startForceMode (start_force_mode_call 5)].
Proof.
  split.
  - rewrite (force_mode_started_iff_ready one_second_run silent_robot 10).
    + reflexivity.
    + unfold chronological. cbn. repeat constructor.
  - rewrite (force_mode_started_iff_ready one_second_run spuriously_woken_robot 10).
    + reflexivity.
    + unfold chronological. cbn. repeat constructor.
Defined.

(** *** The firmware version *)

(** X14. The reported major version decides nothing but the shape of the
    [startForceMode] call: with any other version the run ends the same
    way and consists of the same events apart from that call. *)
Theorem version_only_selects_the_call
        (argv : list string) (env : Environment) (fuel : nat) (major : Z) :
  snd (main argv (with_major major env) fuel) = snd (main argv env fuel)
  /\ other_events (fst (main argv (with_major major env) fuel))
     = other_events (fst (main argv env fuel)).
Proof.
  rewrite !main_unfold.
  change (parse_second_to_run argv (with_major major env))
    with (parse_second_to_run argv env).
  change (session_wait (with_major major env)) with (session_wait env).
  change (startup_events argv (with_major major env)) with (startup_events argv env).
  cbn [with_major connect commandStop startForceMode steady_clock_now].
  destruct (parse_second_to_run argv env) as [s|]; [|split; reflexivity].
  rewrite (keepalive_loop_ext (with_major major env) env) by reflexivity.
  destruct (connect env); [|split; reflexivity].
  destruct (commandStop env); [|split; reflexivity].
  destruct (returned (session_wait env)); [|split; reflexivity].
  destruct (startForceMode env); cbn [negb].
  - destruct (keepalive_loop env s fuel 0 (double_of_int64 0) (steady_clock_now env 0)) as [es [[]|o]];
      (split; [reflexivity|]); cbn [fst]; unfold other_events;
      rewrite !filter_app; reflexivity.
  - split; [reflexivity|]. cbn [fst]. unfold other_events.
    rewrite !filter_app. reflexivity.
Qed.
